(** * StreamCastExtension: the CastPlayer controller of js/castVideoPlayer.js

    A shallow embedding of the CastPlayer object (the sender-side controller
    that proxies the Chrome cast SDK, keeps the player state machine and the
    progress bar, and runs the page-scraping source locators), followed by
    the properties of its state machine.

    Conventions of the embedding.
    - A JavaScript handler is a function from the world (the CastPlayer
      object, the part of the DOM the handlers read back, the browser's timer
      tables, the log of cast SDK calls and the scraped page) to a completion
      and a new world.  A [TypeError] raised by a property access on [null]
      or [undefined] aborts the handler and keeps the effects made so far,
      as the browser's event loop does.
    - Numbers are IEEE 754 binary64 values with the arithmetic of the
      Standard Library's [SpecFloat]; [parseInt] of a number reads the
      decimal string of the number, as JavaScript does.
    - A style property that holds a length is kept as the whole pixels that
      [parseInt] reads back from it; the browser rejects the assignment of a
      length that is not a finite number, and of a negative width or height.
    - [console.log], [updateMediaControlUI] and the text written into
      [#duration], [#media_title] and the like only write DOM properties that
      no handler reads back; they are kept as steps that leave the world
      unchanged. *)

From Stdlib Require Import ZArith QArith Qround String Ascii List Lia SpecFloat.
From stdpp Require Import base gmap sets list strings.

Local Open Scope string_scope.
Local Open Scope list_scope.
Local Open Scope Z_scope.

(** ** Constants *)

(** Width of progress bar in pixel *)
Definition PROGRESS_BAR_WIDTH : Z := 600.

(** The max attempts count for timers *)
Definition MAX_ATTEMPT_COUNT : Z := 5.

(** Constants of states for Chromecast device *)
Module DEVICE_STATE.
Definition IDLE : Z := 0.
Definition ACTIVE : Z := 1.
Definition WARNING : Z := 2.
Definition ERROR : Z := 3.
End DEVICE_STATE.

(** Constants of states for CastPlayer *)
Module PLAYER_STATE.
Definition IDLE : string := "IDLE".
Definition LOADING : string := "LOADING".
Definition LOADED : string := "LOADED".
Definition PLAYING : string := "PLAYING".
Definition PAUSED : string := "PAUSED".
Definition STOPPED : string := "STOPPED".
Definition SEEKING : string := "SEEKING".
Definition ERROR : string := "ERROR".
End PLAYER_STATE.

(** ** JavaScript numbers *)

(** A JavaScript number is an IEEE 754 binary64 value. *)
Definition number : Type := spec_float.

Definition prec : Z := 53.
Definition emax : Z := 1024.

Definition NaN : number := S754_nan.

(** The number nearest to an integer. *)
Definition number_of_Z (z : Z) : number := binary_normalize prec emax z 0 false.

Definition js_add (x y : number) : number := SFadd prec emax x y.
Definition js_sub (x y : number) : number := SFsub prec emax x y.
Definition js_mul (x y : number) : number := SFmul prec emax x y.
Definition js_div (x y : number) : number := SFdiv prec emax x y.

(** [x < y]; [x > y] is [js_lt y x]. *)
Definition js_lt (x y : number) : bool := SFltb x y.

(** [x == y] on numbers. *)
Definition js_eq (x y : number) : bool := SFeqb x y.

Definition is_finite (x : number) : bool :=
  match x with
  | S754_zero _ | S754_finite _ _ _ => true
  | S754_infinity _ | S754_nan => false
  end.

(** The number written [a / b] for integers [a] and [b] that are numbers,
    as the decimal literal [0.5] is [ratio 1 2]. *)
Definition ratio (a b : Z) : number := js_div (number_of_Z a) (number_of_Z b).

(** The value of a finite number. *)
Definition value (m : positive) (e : Z) : Q :=
  match e with
  | Zneg p => Zpos m # Pos.pow 2 p
  | _ => inject_Z (Zpos m * 2 ^ e)
  end.

Definition Math_floor (x : number) : number :=
  match x with
  | S754_finite s m (Zneg p) =>
      number_of_Z (Qfloor (value m (Zneg p) * (if s then -1 else 1)))
  | _ => x
  end.

Definition Math_ceil (x : number) : number :=
  match x with
  | S754_finite s m (Zneg p) =>
      let z := Qceiling (value m (Zneg p) * (if s then -1 else 1)) in
      if z =? 0 then S754_zero s else number_of_Z z
  | _ => x
  end.

(** *** The string of a number, as far as [parseInt] reads it *)

(** The number of decimal digits of a positive integer. *)
Fixpoint digits10 (fuel : nat) (z : Z) : Z :=
  match fuel with
  | O => 0
  | S fuel => if z <? 10 then 1 else 1 + digits10 fuel (z / 10)
  end.

(** The number of zeros between the decimal point and the first digit of a
    positive value below 1. *)
Fixpoint leading_zeros (fuel : nat) (x : Q) : Z :=
  match fuel with
  | O => 0
  | S fuel =>
      if Qle_bool 1 (x * 10) then 0 else 1 + leading_zeros fuel (x * 10)
  end.

(** [n] with [10^(n-1) <= x < 10^n], for [x > 0]. *)
Definition decimal_exponent (x : Q) : Z :=
  if Qle_bool 1 x then digits10 400 (Qfloor x) else - leading_zeros 400 x.

Definition pow10 (q : Z) : Q :=
  if 0 <=? q then inject_Z (10 ^ q) else (1 # Z.to_pos (10 ^ (- q))).

Definition Qlt_bool (x y : Q) : bool := negb (Qle_bool y x).

(** The decimal numbers that round to the number of mantissa [m] and
    exponent [e] lie between the midpoints to its neighbours, the
    midpoints included when the mantissa is even. *)
Definition rounds_to (m : positive) (e : Z) (v : Q) : bool :=
  let x := value m e in
  let half := match e - 1 with
              | Zneg p => 1 # Pos.pow 2 p
              | h => inject_Z (2 ^ h)
              end in
  let below :=
    if (Zpos m =? 2 ^ 52) && (-1074 <? e) then (half / 2)%Q else half in
  let low := (x - below)%Q in
  let high := (x + half)%Q in
  if Z.even (Zpos m)
  then Qle_bool low v && Qle_bool v high
  else Qlt_bool low v && Qlt_bool v high.

(** The digits [s] and the scale [q] of the shortest decimal [s * 10^q]
    that rounds to the number, the closest to it among the shortest, tried
    for 1, 2, ... digits. *)
Fixpoint shortest_decimal (fuel : nat) (k : Z) (m : positive) (e : Z) (n : Z)
  : Z * Z :=
  match fuel with
  | O => (Zpos m, e)
  | S fuel =>
      let x := value m e in
      let q := n - k in
      let s := Qfloor (x / pow10 q) in
      let lo := (inject_Z s * pow10 q)%Q in
      let hi := (inject_Z (s + 1) * pow10 q)%Q in
      match rounds_to m e lo, rounds_to m e hi with
      | true, false => (s, q)
      | false, true => (s + 1, q)
      | true, true =>
          match Qcompare (x - lo) (hi - x) with
          | Lt => (s, q)
          | Gt => (s + 1, q)
          | Eq => if Z.even s then (s, q) else (s + 1, q)
          end
      | false, false => shortest_decimal fuel (k + 1) m e n
      end
  end.

(** The integer that [parseInt] reads at the head of the string of a
    positive finite number: the digits before the decimal point in decimal
    notation, the first digit in exponent notation. *)
Definition parseInt_digits (m : positive) (e : Z) : Z :=
  let '(s, q) := shortest_decimal 17 1 m e (decimal_exponent (value m e)) in
  let k := digits10 400 s in
  let n := q + k in
  if (21 <? n) || (n <=? -6) then s / 10 ^ (k - 1)
  else if 0 <=? q then s * 10 ^ q
  else s / 10 ^ (- q).

(** [parseInt(x)] of a number: [parseInt] of its string. *)
Definition parseInt (x : number) : number :=
  match x with
  | S754_nan | S754_infinity _ => NaN
  | S754_zero _ => S754_zero false
  | S754_finite s m e =>
      let z := parseInt_digits m e in
      if z =? 0 then S754_zero s
      else number_of_Z (if s then - z else z)
  end.

(** The whole part of a finite number. *)
Definition integer_part (x : number) : option Z :=
  match x with
  | S754_nan | S754_infinity _ => None
  | S754_zero _ => Some 0
  | S754_finite s m e =>
      let z := Qfloor (value m e) in Some (if s then - z else z)
  end.

(** ** Objects handed over by the cast SDK and the browser *)

(** A [chrome.cast.media.Media] object; [duration] is [media.duration]. *)
Module Media.
Record t : Type := mk {
  mediaSessionId : Z;
  sessionId : string;
  playerState : string;
  currentTime : number;
  duration : number
}.
End Media.

(** A [chrome.cast.Session] object with its [media] array. *)
Module Session.
Record t : Type := mk {
  sessionId : string;
  media : list Media.t
}.
End Session.

(** The argument of a media update listener.  The SDK calls the listener
    with the boolean [isAlive]; [updateProgressBar] reads the argument as a
    status object with [idleReason], [playerState] and [currentTime]. *)
Module MediaStatus.
Record t : Type := mk {
  idleReason : option string;
  playerState : string;
  currentTime : number
}.
End MediaStatus.

Inductive UpdateArg : Type :=
  | Alive (isAlive : bool)
  | Status (e : MediaStatus.t).

(** The fields of a pointer event that the handlers read. *)
Module MouseEvent.
Record t : Type := mk {
  currentTarget_id : string;
  offsetX : number;
  offsetY : number
}.
End MouseEvent.

(** [this.mediaContent]: an array object with the properties [title],
    [source], [thumb] and [subtitle], each set by its own assignment. *)
Module MediaContent.
Record t : Type := mk {
  title : option string;
  source : option string;
  thumb : option string;
  subtitle : option string
}.
Definition new_Array : t := mk None None None None.
End MediaContent.

(** The request built by [loadMedia]. *)
Module LoadRequest.
Record t : Type := mk {
  contentId : option string;
  contentType : string;
  autoplay : bool;
  currentTime : number;
  customData_title : option string;
  customData_thumb : option string
}.
End LoadRequest.

(** Calls into the cast SDK, in the order they are issued. *)
Inductive CastCall : Type :=
  | chrome_cast_initialize
  | chrome_cast_requestSession
  | session_stop (s : Session.t)
  | session_loadMedia (s : Session.t) (request : LoadRequest.t)
  | session_setReceiverVolumeLevel (s : Session.t) (level : number)
  | session_setReceiverMuted (s : Session.t) (muted : bool)
  | media_play (m : Media.t)
  | media_pause (m : Media.t)
  | media_stop (m : Media.t)
  | media_seek (m : Media.t) (currentTime : number)
  | media_addUpdateListener (m : Media.t).

(** ** The scraped page *)

(** An item of the jwplayer playlist. *)
Module JwMedia.
Record t : Type := mk {
  title : option string;
  file : option string;
  image : option string
}.
End JwMedia.

(** The global [jwplayer]: not defined, or defined with [getPlaylist]
    missing ([None]), returning [undefined] ([Some None]) or returning a
    playlist. *)
Inductive JwPlayer : Type :=
  | jw_undefined
  | jw_defined (getPlaylist : option (option (list JwMedia.t))).

Module Page.
Record t : Type := mk {
  (** [chrome.cast && chrome.cast.isAvailable] *)
  chrome_cast_isAvailable : bool;
  jwplayer : JwPlayer;
  (** [window.location.host] *)
  location_host : string;
  (** [#page] and, for each of its elements of class "header page", the
      [innerHTML] of its first element child *)
  page_headers : option (list (option string));
  (** [#stream_flash] and the [innerHTML] of its script elements *)
  stream_flash : option (list string)
}.
End Page.

(** ** The world *)

(** The callbacks handed to [setTimeout]. *)
Inductive TimeoutCallback : Type :=
  | cb_initializeCastPlayer
  | cb_setProgressFlag
  (** [function() {callbackFunction(attemptCount++)}], with the value of the
      captured variable [attemptCount] *)
  | cb_findCloudPlayerSource (attemptCount : Z).

(** The browser's timers: the handles of the live intervals, the pending
    timeouts and the next handle.  The only interval callback of the program
    is [incrementMediaTime]. *)
Record Window : Type := mkWindow {
  intervals : gset positive;
  timeouts : list TimeoutCallback;
  next_handle : positive
}.

(** The style properties that handlers read back, in pixels; [None] is the
    empty string of a property never set. *)
Record Document : Type := mkDocument {
  progress_width : option Z;
  progress_indicator_marginLeft : option Z;
  audio_bg_level_height : option Z
}.

(** The CastPlayer object. [timer] is [null] or the handle returned by
    [setInterval]; [clearInterval] does not reset it. *)
Record CastPlayer : Type := mkCastPlayer {
  deviceState : Z;
  currentMediaSession : option Media.t;
  currentVolume : number;
  autoplay : bool;
  session : option Session.t;
  castPlayerState : string;
  audio : bool;
  mediaContent : option MediaContent.t;
  currentMediaTime : number;
  currentMediaDuration : number;
  timer : option positive;
  progressFlag : bool;
  timerStep : Z
}.

Definition with_deviceState (v : Z) (c : CastPlayer) : CastPlayer :=
  mkCastPlayer v (currentMediaSession c) (currentVolume c) (autoplay c)
    (session c) (castPlayerState c) (audio c) (mediaContent c)
    (currentMediaTime c) (currentMediaDuration c) (timer c) (progressFlag c)
    (timerStep c).

Definition with_currentMediaSession (v : option Media.t) (c : CastPlayer) : CastPlayer :=
  mkCastPlayer (deviceState c) v (currentVolume c) (autoplay c) (session c)
    (castPlayerState c) (audio c) (mediaContent c) (currentMediaTime c)
    (currentMediaDuration c) (timer c) (progressFlag c) (timerStep c).

Definition with_currentVolume (v : number) (c : CastPlayer) : CastPlayer :=
  mkCastPlayer (deviceState c) (currentMediaSession c) v (autoplay c)
    (session c) (castPlayerState c) (audio c) (mediaContent c)
    (currentMediaTime c) (currentMediaDuration c) (timer c) (progressFlag c)
    (timerStep c).

Definition with_autoplay (v : bool) (c : CastPlayer) : CastPlayer :=
  mkCastPlayer (deviceState c) (currentMediaSession c) (currentVolume c) v
    (session c) (castPlayerState c) (audio c) (mediaContent c)
    (currentMediaTime c) (currentMediaDuration c) (timer c) (progressFlag c)
    (timerStep c).

Definition with_session (v : option Session.t) (c : CastPlayer) : CastPlayer :=
  mkCastPlayer (deviceState c) (currentMediaSession c) (currentVolume c)
    (autoplay c) v (castPlayerState c) (audio c) (mediaContent c)
    (currentMediaTime c) (currentMediaDuration c) (timer c) (progressFlag c)
    (timerStep c).

Definition with_castPlayerState (v : string) (c : CastPlayer) : CastPlayer :=
  mkCastPlayer (deviceState c) (currentMediaSession c) (currentVolume c)
    (autoplay c) (session c) v (audio c) (mediaContent c) (currentMediaTime
    c) (currentMediaDuration c) (timer c) (progressFlag c) (timerStep c).

Definition with_audio (v : bool) (c : CastPlayer) : CastPlayer :=
  mkCastPlayer (deviceState c) (currentMediaSession c) (currentVolume c)
    (autoplay c) (session c) (castPlayerState c) v (mediaContent c)
    (currentMediaTime c) (currentMediaDuration c) (timer c) (progressFlag c)
    (timerStep c).

Definition with_mediaContent (v : option MediaContent.t) (c : CastPlayer) : CastPlayer :=
  mkCastPlayer (deviceState c) (currentMediaSession c) (currentVolume c)
    (autoplay c) (session c) (castPlayerState c) (audio c) v
    (currentMediaTime c) (currentMediaDuration c) (timer c) (progressFlag c)
    (timerStep c).

Definition with_currentMediaTime (v : number) (c : CastPlayer) : CastPlayer :=
  mkCastPlayer (deviceState c) (currentMediaSession c) (currentVolume c)
    (autoplay c) (session c) (castPlayerState c) (audio c) (mediaContent c)
    v (currentMediaDuration c) (timer c) (progressFlag c) (timerStep c).

Definition with_currentMediaDuration (v : number) (c : CastPlayer) : CastPlayer :=
  mkCastPlayer (deviceState c) (currentMediaSession c) (currentVolume c)
    (autoplay c) (session c) (castPlayerState c) (audio c) (mediaContent c)
    (currentMediaTime c) v (timer c) (progressFlag c) (timerStep c).

Definition with_timer (v : option positive) (c : CastPlayer) : CastPlayer :=
  mkCastPlayer (deviceState c) (currentMediaSession c) (currentVolume c)
    (autoplay c) (session c) (castPlayerState c) (audio c) (mediaContent c)
    (currentMediaTime c) (currentMediaDuration c) v (progressFlag c)
    (timerStep c).

Definition with_progressFlag (v : bool) (c : CastPlayer) : CastPlayer :=
  mkCastPlayer (deviceState c) (currentMediaSession c) (currentVolume c)
    (autoplay c) (session c) (castPlayerState c) (audio c) (mediaContent c)
    (currentMediaTime c) (currentMediaDuration c) (timer c) v (timerStep c).

Definition with_timerStep (v : Z) (c : CastPlayer) : CastPlayer :=
  mkCastPlayer (deviceState c) (currentMediaSession c) (currentVolume c)
    (autoplay c) (session c) (castPlayerState c) (audio c) (mediaContent c)
    (currentMediaTime c) (currentMediaDuration c) (timer c) (progressFlag c)
    v.
Record World : Type := mkWorld {
  this : CastPlayer;
  document : Document;
  window : Window;
  (** the calls made into the cast SDK, oldest first *)
  cast : list CastCall;
  page : Page.t
}.

Definition on_this (f : CastPlayer → CastPlayer) (w : World) : World :=
  mkWorld (f (this w)) (document w) (window w) (cast w) (page w).
Definition on_document (f : Document → Document) (w : World) : World :=
  mkWorld (this w) (f (document w)) (window w) (cast w) (page w).
Definition on_window (f : Window → Window) (w : World) : World :=
  mkWorld (this w) (document w) (f (window w)) (cast w) (page w).
Definition on_cast (f : list CastCall → list CastCall) (w : World) : World :=
  mkWorld (this w) (document w) (window w) (f (cast w)) (page w).
Definition with_page (p : Page.t) (w : World) : World :=
  mkWorld (this w) (document w) (window w) (cast w) p.

(** ** Handlers as state transformers that may throw *)

Inductive Completion (A : Type) : Type :=
  | Normal (a : A)
  | TypeError.
Arguments Normal {A} a.
Arguments TypeError {A}.

Definition JS (A : Type) : Type := World → Completion A * World.

#[global] Instance JS_ret : MRet JS := λ A a w, (Normal a, w).
#[global] Instance JS_bind : MBind JS := λ A B f m w,
  match m w with
  | (Normal a, w') => f a w'
  | (TypeError, w') => (TypeError, w')
  end.

Definition throw {A} : JS A := λ w, (TypeError, w).
Definition gets {A} (f : World → A) : JS A := λ w, (Normal (f w), w).
Definition modify (f : World → World) : JS () := λ w, (Normal (), f w).

(** A property access [o.p] on a value [o] that may be [null]. *)
Definition deref {A} (o : option A) : JS A :=
  match o with
  | Some x => mret x
  | None => throw
  end.

(** The world a handler leaves behind, however it completes. *)
Definition exec {A} (m : JS A) (w : World) : World := (m w).2.
Definition completes {A} (m : JS A) (w : World) : bool :=
  match (m w).1 with Normal _ => true | TypeError => false end.

(** Reads and assignments of the fields of [this]. *)
Definition get {A} (field : CastPlayer → A) : JS A := gets (λ w, field (this w)).
Definition set {A} (setter : A → CastPlayer → CastPlayer) (v : A) : JS () :=
  modify (on_this (setter v)).

(** A call into the cast SDK. *)
Definition call (c : CastCall) : JS () := modify (on_cast (λ l, l ++ [c])).

(** ** JavaScript and browser primitives *)

(** A value that may be [undefined], where a number is expected. *)
Definition to_number (x : option number) : number := default NaN x.

(** [parseInt] of a style property set by [css_length] or [css_margin]; the
    empty string gives [NaN]. *)
Definition parseInt_style (px : option Z) : number :=
  match px with
  | Some z => number_of_Z z
  | None => NaN
  end.

(** Assigning [v + 'px'] to [style.width] or [style.height]: the browser
    keeps the old value when [v] is not a finite number or is negative. *)
Definition css_length (v : number) (old : option Z) : option Z :=
  match integer_part v with
  | Some z => if js_lt v (number_of_Z 0) then old else Some z
  | None => old
  end.

(** Assigning [v + 'px'] to [style.marginLeft], which may be negative. *)
Definition css_margin (v : number) (old : option Z) : option Z :=
  match integer_part v with
  | Some z => Some z
  | None => old
  end.

(** [-21 - PROGRESS_BAR_WIDTH], the margin that puts the indicator at the
    start of the bar. *)
Definition indicator_origin : number :=
  js_sub (number_of_Z (-21)) (number_of_Z PROGRESS_BAR_WIDTH).

Definition set_progress_width (v : number) : JS () :=
  modify (on_document (λ d,
    mkDocument (css_length v (progress_width d))
      (progress_indicator_marginLeft d) (audio_bg_level_height d))).

Definition set_progress_indicator_marginLeft (v : number) : JS () :=
  modify (on_document (λ d,
    mkDocument (progress_width d)
      (css_margin v (progress_indicator_marginLeft d))
      (audio_bg_level_height d))).

Definition set_audio_bg_level_height (v : number) : JS () :=
  modify (on_document (λ d,
    mkDocument (progress_width d) (progress_indicator_marginLeft d)
      (css_length v (audio_bg_level_height d)))).

(** [setInterval(callback, delay)] returns a fresh handle. *)
Definition setInterval : JS positive := λ w,
  let h := next_handle (window w) in
  (Normal h,
   on_window (λ b, mkWindow ({[h]} ∪ intervals b) (timeouts b) (Pos.succ h)) w).

(** [clearInterval(handle)]; [clearInterval(null)] does nothing.  Handles
    are never reused, so the handle of an interval names no timeout. *)
Definition clearInterval (handle : option positive) : JS () :=
  match handle with
  | Some h =>
      modify (on_window (λ b,
        mkWindow (intervals b ∖ {[h]}) (timeouts b) (next_handle b)))
  | None => mret ()
  end.

(** [setTimeout(callback, delay)]; the handle is dropped by every caller. *)
Definition setTimeout (callback : TimeoutCallback) : JS () :=
  modify (on_window (λ b,
    mkWindow (intervals b) (timeouts b ++ [callback])
      (Pos.succ (next_handle b)))).

(** Steps that only write to the console or to DOM properties that are
    never read back. *)
Definition console_log : JS () := mret ().
Definition updateMediaControlUI : JS () := mret ().
Definition initializeUI : JS () := mret ().
Definition onMediaSourceSearchSuccess : JS () := mret ().

(** ** The progress timer *)

(** [startProgressTimer(callback)]; the callback is always
    [incrementMediaTime]. *)
Definition startProgressTimer : JS () :=
  t ← get timer;
  (if t is Some _ then
     clearInterval t;;
     set with_timer None
   else mret ());;
  (* start progress timer *)
  h ← setInterval;
  set with_timer (Some h).

(** Resets the media time, duration and the progress bar. *)
Definition resetProgressAndDuration : JS () :=
  set with_currentMediaTime (number_of_Z 0);;
  set with_currentMediaDuration (number_of_Z 0);;
  set_progress_width (number_of_Z 0);;
  set_progress_indicator_marginLeft indicator_origin.

(** Update progress bar based on timer *)
Definition updateProgressBarByTimer : JS () :=
  width ← gets (λ w, progress_width (document w));
  (if width is None then set_progress_width (number_of_Z 0) else mret ());;
  duration ← get currentMediaDuration;
  time ← get currentMediaTime;
  let pp : option number :=
    if js_lt (number_of_Z 0) duration
    then Some (Math_floor
                 (js_div (js_mul (number_of_Z PROGRESS_BAR_WIDTH) time) duration))
    else None in
  flag ← get progressFlag;
  (if flag : bool then
     (* don't update progress if it's been updated on media status update event *)
     set_progress_width (to_number pp);;
     set_progress_indicator_marginLeft (js_add indicator_origin (to_number pp))
   else mret ());;
  if js_lt (number_of_Z PROGRESS_BAR_WIDTH) (to_number pp) then
    t ← get timer;
    clearInterval t;;
    set with_deviceState DEVICE_STATE.IDLE;;
    set with_castPlayerState PLAYER_STATE.IDLE;;
    updateMediaControlUI
  else mret ().

(** [this.localPlayerState] is never assigned. *)
Definition localPlayerState : option string := None.

(** A possibly undefined value [==] a string. *)
Definition loose_eq (x : option string) (s : string) : bool :=
  if x is Some x then (x =? s)%string else false.

(** Increment media current position by 1 second *)
Definition incrementMediaTime : JS () :=
  st ← get castPlayerState;
  if (st =? PLAYER_STATE.PLAYING)%string
     || loose_eq localPlayerState PLAYER_STATE.PLAYING then
    time ← get currentMediaTime;
    duration ← get currentMediaDuration;
    if js_lt time duration then
      set with_currentMediaTime (js_add time (number_of_Z 1));;
      updateProgressBarByTimer
    else
      set with_currentMediaTime (number_of_Z 0);;
      t ← get timer;
      clearInterval t
  else mret ().

(** Set progressFlag with a timeout of 1 second *)
Definition setProgressFlag : JS () :=
  set with_progressFlag true.

(** ** Media status updates *)

Definition e_idleReason (e : UpdateArg) : option string :=
  match e with Status e => MediaStatus.idleReason e | Alive _ => None end.
Definition e_playerState (e : UpdateArg) : option string :=
  match e with Status e => Some (MediaStatus.playerState e) | Alive _ => None end.
Definition e_currentTime (e : UpdateArg) : option number :=
  match e with Status e => Some (MediaStatus.currentTime e) | Alive _ => None end.

(** [PROGRESS_BAR_WIDTH * currentTime / duration] *)
Definition bar_position (currentTime : option number) (duration : number)
  : number :=
  js_div (js_mul (number_of_Z PROGRESS_BAR_WIDTH) (to_number currentTime))
    duration.

(** Update progress bar when there is a media status update *)
Definition updateProgressBar (e : UpdateArg) : JS () :=
  if loose_eq (e_idleReason e) "FINISHED" && loose_eq (e_playerState e) "IDLE"
  then
    set_progress_width (number_of_Z 0);;
    set_progress_indicator_marginLeft indicator_origin;;
    t ← get timer;
    clearInterval t;;
    set with_castPlayerState PLAYER_STATE.STOPPED
  else
    m ← get currentMediaSession ≫= deref;
    set_progress_width
      (Math_ceil (js_add (bar_position (e_currentTime e) (Media.duration m))
                    (number_of_Z 1)));;
    set with_progressFlag false;;
    (* don't update progress in 1 second *)
    setTimeout cb_setProgressFlag;;
    m ← get currentMediaSession ≫= deref;
    let pp := Math_ceil (bar_position (e_currentTime e) (Media.duration m)) in
    set_progress_indicator_marginLeft (js_add indicator_origin pp).

(** Callback function for media status update from receiver.  [e == false]
    holds for the boolean [false] only. *)
Definition onMediaStatusUpdate (e : UpdateArg) : JS () :=
  (if e is Alive false then
     set with_currentMediaTime (number_of_Z 0);;
     set with_castPlayerState PLAYER_STATE.IDLE
   else mret ());;
  console_log;;
  updateProgressBar e;;
  updateMediaControlUI.

(** ** Sessions and media loading *)

(** Callback function for loadMedia success, and adoption of the media of
    a session joined on page load.  The text written into [#duration] is not
    modelled. *)
Definition onMediaDiscovered (how : string) (mediaSession : Media.t) : JS () :=
  console_log;;
  set with_currentMediaSession (Some mediaSession);;
  (if (how =? "loadMedia")%string then
     a ← get autoplay;
     if a : bool then set with_castPlayerState PLAYER_STATE.PLAYING
     else set with_castPlayerState PLAYER_STATE.LOADED
   else mret ());;
  (if (how =? "activeSession")%string then
     s ← get session ≫= deref;
     m0 ← deref (head (Session.media s));
     set with_castPlayerState (Media.playerState m0);;
     s ← get session ≫= deref;
     m0 ← deref (head (Session.media s));
     set with_currentMediaTime (Media.currentTime m0)
   else mret ());;
  st ← get castPlayerState;
  (if (st =? PLAYER_STATE.PLAYING)%string then
     (* start progress timer *)
     startProgressTimer
   else mret ());;
  m ← get currentMediaSession ≫= deref;
  call (media_addUpdateListener m);;
  m ← get currentMediaSession ≫= deref;
  set with_currentMediaDuration (Media.duration m);;
  (* update UIs *)
  updateMediaControlUI.

(** Auto-join of an existing session when a page is reloaded. *)
Definition sessionListener (e : option Session.t) : JS () :=
  set with_session e;;
  s ← get session;
  if s is Some s then
    set with_deviceState DEVICE_STATE.ACTIVE;;
    if head (Session.media s) is Some m0 then
      onMediaDiscovered "activeSession" m0
    else mret ()
  else mret ().

Definition receiverListener (e : string) : JS () := console_log.
Definition onInitSuccess : JS () := console_log;; updateMediaControlUI.
Definition onError : JS () := console_log.
Definition mediaCommandSuccessCallback : JS () := console_log.

(** Loads media into a running receiver application *)
Definition loadMedia : JS () :=
  s ← get session;
  if s is None then
    console_log
  else
    mc ← get mediaContent ≫= deref;
    console_log;;
    a ← get autoplay;
    let request :=
      LoadRequest.mk (MediaContent.source mc) "video/mp4" a (number_of_Z 0)
        (MediaContent.title mc) (MediaContent.thumb mc) in
    set with_castPlayerState PLAYER_STATE.LOADING;;
    s ← get session ≫= deref;
    call (session_loadMedia s request).

Definition launchApp : JS () :=
  console_log;;
  call chrome_cast_requestSession;;
  t ← get timer;
  if t is Some _ then clearInterval t else mret ().

(** Callback function for request session success *)
Definition onRequestSessionSuccess (e : Session.t) : JS () :=
  console_log;;
  set with_session (Some e);;
  set with_deviceState DEVICE_STATE.ACTIVE;;
  updateMediaControlUI;;
  loadMedia.

(** Callback function for launch error *)
Definition onLaunchError : JS () :=
  console_log;;
  set with_deviceState DEVICE_STATE.ERROR.

(** Stops the running receiver application associated with the session. *)
Definition stopApp : JS () :=
  s ← get session ≫= deref;
  call (session_stop s).

(** Callback function for stop app success *)
Definition onStopAppSuccess (message : string) : JS () :=
  console_log;;
  set with_deviceState DEVICE_STATE.IDLE;;
  set with_castPlayerState PLAYER_STATE.IDLE;;
  set with_currentMediaSession None;;
  t ← get timer;
  clearInterval t;;
  resetProgressAndDuration;;
  updateMediaControlUI.

(** Callback function when media load returns error *)
Definition onLoadMediaError : JS () :=
  console_log;;
  set with_castPlayerState PLAYER_STATE.IDLE;;
  (* update UIs *)
  updateMediaControlUI.

(** ** Transport commands *)

(** Play media in Cast mode *)
Definition playMedia : JS () :=
  st ← get castPlayerState;
  if (st =? PLAYER_STATE.IDLE)%string then
    mret ()
  else
    (if (st =? PLAYER_STATE.LOADED)%string
        || (st =? PLAYER_STATE.PAUSED)%string then
       m ← get currentMediaSession ≫= deref;
       call (media_play m);;
       m ← get currentMediaSession ≫= deref;
       call (media_addUpdateListener m);;
       set with_castPlayerState PLAYER_STATE.PLAYING;;
       (* start progress timer *)
       startProgressTimer
     else if (st =? PLAYER_STATE.LOADING)%string
             || (st =? PLAYER_STATE.STOPPED)%string then
       loadMedia;;
       m ← get currentMediaSession ≫= deref;
       call (media_addUpdateListener m);;
       set with_castPlayerState PLAYER_STATE.PLAYING
     else mret ());;
    updateMediaControlUI.

(** Pause media playback in Cast mode *)
Definition pauseMedia : JS () :=
  st ← get castPlayerState;
  if (st =? PLAYER_STATE.PLAYING)%string then
    set with_castPlayerState PLAYER_STATE.PAUSED;;
    m ← get currentMediaSession ≫= deref;
    call (media_pause m);;
    updateMediaControlUI;;
    t ← get timer;
    clearInterval t
  else mret ().

(** Stop media playback *)
Definition stopMedia : JS () :=
  m ← get currentMediaSession ≫= deref;
  call (media_stop m);;
  set with_castPlayerState PLAYER_STATE.STOPPED;;
  t ← get timer;
  clearInterval t;;
  updateMediaControlUI.

(** Set media volume in Cast mode; [event] is the global [window.event]. *)
Definition setReceiverVolume (mute : bool) (event : MouseEvent.t) : JS () :=
  let pos := parseInt (MouseEvent.offsetY event) in
  let id := MouseEvent.currentTarget_id event in
  (if (id =? "audio_bg_track")%string || (id =? "audio_bg_level")%string then
     (* add a drag to avoid loud volume *)
     if js_lt pos (number_of_Z 100) then
       set_audio_bg_level_height pos;;
       set with_currentVolume (js_div pos (number_of_Z 100))
     else
       set with_currentVolume (number_of_Z 1)
   else mret ());;
  (if negb mute then
     s ← get session ≫= deref;
     v ← get currentVolume;
     call (session_setReceiverVolumeLevel s v)
   else
     s ← get session ≫= deref;
     call (session_setReceiverMuted s true));;
  updateMediaControlUI.

(** Mute media function *)
Definition muteMedia (event : MouseEvent.t) : JS () :=
  a ← get audio;
  (if a : bool then
     set with_audio false;;
     m ← get currentMediaSession;
     if m is Some _ then setReceiverVolume true event else mret ()
   else
     set with_audio true;;
     m ← get currentMediaSession;
     if m is Some _ then setReceiverVolume false event else mret ());;
  updateMediaControlUI.

(** The seek target of a click on the bar at offset [pos]:
    [parseInt(pos * this.currentMediaDuration / PROGRESS_BAR_WIDTH)]. *)
Definition seek_target (pos : number) (duration : number) : number :=
  parseInt (js_div (js_mul pos duration) (number_of_Z PROGRESS_BAR_WIDTH)).

(** The seek target of a drag of the indicator by [pos]:
    [parseInt(this.currentMediaTime +
              this.currentMediaDuration * pos / PROGRESS_BAR_WIDTH)]. *)
Definition seek_target_indicator (time : number) (pos : number)
    (duration : number) : number :=
  parseInt
    (js_add time
       (js_div (js_mul duration pos) (number_of_Z PROGRESS_BAR_WIDTH))).

(** media seek function *)
Definition seekMedia (event : MouseEvent.t) : JS () :=
  let pos := parseInt (MouseEvent.offsetX event) in
  pi_marginLeft ← gets (λ w, progress_indicator_marginLeft (document w));
  p_width ← gets (λ w, progress_width (document w));
  time ← get currentMediaTime;
  duration ← get currentMediaDuration;
  let '(curr, pp, pw) :=
    if (MouseEvent.currentTarget_id event =? "progress_indicator")%string then
      (seek_target_indicator time pos duration,
       js_add (parseInt_style pi_marginLeft) pos,
       js_add (parseInt_style p_width) pos)
    else
      (seek_target pos duration,
       js_sub (js_sub pos (number_of_Z 21)) (number_of_Z PROGRESS_BAR_WIDTH),
       pos) in
  st ← get castPlayerState;
  (if (st =? PLAYER_STATE.PLAYING)%string
      || (st =? PLAYER_STATE.PAUSED)%string then
     set_progress_width pw;;
     set_progress_indicator_marginLeft pp
   else mret ());;
  if negb (st =? PLAYER_STATE.PLAYING)%string
     && negb (st =? PLAYER_STATE.PAUSED)%string then
    mret ()
  else
    set with_currentMediaTime curr;;
    _ ← get currentMediaSession ≫= deref;
    console_log;;
    time ← get currentMediaTime;
    m ← get currentMediaSession ≫= deref;
    call (media_seek m time);;
    set with_castPlayerState PLAYER_STATE.SEEKING;;
    updateMediaControlUI.

(** Callback function for seek success *)
Definition onSeekSuccess : JS () :=
  console_log;;
  set with_castPlayerState PLAYER_STATE.PLAYING;;
  updateMediaControlUI.

(** ** Source locators *)

(** Property assignments on [this.mediaContent]. *)
Definition set_mediaContent (f : MediaContent.t → MediaContent.t) : JS () :=
  mc ← get mediaContent ≫= deref;
  set with_mediaContent (Some (f mc)).

Definition with_title (v : option string) (mc : MediaContent.t) :=
  MediaContent.mk v (MediaContent.source mc) (MediaContent.thumb mc)
    (MediaContent.subtitle mc).
Definition with_source (v : option string) (mc : MediaContent.t) :=
  MediaContent.mk (MediaContent.title mc) v (MediaContent.thumb mc)
    (MediaContent.subtitle mc).
Definition with_thumb (v : option string) (mc : MediaContent.t) :=
  MediaContent.mk (MediaContent.title mc) (MediaContent.source mc) v
    (MediaContent.subtitle mc).
Definition with_subtitle (v : option string) (mc : MediaContent.t) :=
  MediaContent.mk (MediaContent.title mc) (MediaContent.source mc)
    (MediaContent.thumb mc) v.

(** The value of [x++] and the new value of [x]. *)
Definition post_increment (x : Z) : Z * Z := (x, x + 1).

Definition grepTitleFromStreamCloudPage : JS (option string) :=
  headers ← gets (λ w, Page.page_headers (page w));
  match headers with
  | None => mret None
  | Some [] => mret None
  | Some (firstElementChild :: _) =>
      innerHTML ← deref firstElementChild;
      mret (Some innerHTML)
  end.

(** http://streamcloud.eu/ resources *)
Definition findCloudPlayerSource (attemptCount : option Z) : JS () :=
  (* in case the media content has been detected meanwhile by another
     function cancel the search function *)
  mc ← get mediaContent;
  if mc is Some _ then mret ()
  else
    let attemptCount := default 0 attemptCount in
    jw ← gets (λ w, Page.jwplayer (page w));
    match jw with
    | jw_undefined =>
        if attemptCount <=? MAX_ATTEMPT_COUNT
        then setTimeout (cb_findCloudPlayerSource attemptCount)
        else mret ()
    | jw_defined (Some (Some playlist)) =>
        if head playlist is Some media then
          set with_mediaContent (Some MediaContent.new_Array);;
          (if JwMedia.title media is Some title then
             set_mediaContent (with_title (Some title))
           else
             title ← grepTitleFromStreamCloudPage;
             set_mediaContent (with_title title));;
          file ← deref (JwMedia.file media);
          (if negb (String.prefix "http" file) then
             host ← gets (λ w, Page.location_host (page w));
             set_mediaContent
               (with_source (Some ("http://" ++ host ++ file)%string))
           else
             set_mediaContent (with_source (Some file)));;
          set_mediaContent (with_thumb (JwMedia.image media));;
          set_mediaContent (with_subtitle (Some ""));;
          onMediaSourceSearchSuccess
        else mret ()
    | jw_defined _ =>
        if attemptCount <=? MAX_ATTEMPT_COUNT
        then setTimeout (cb_findCloudPlayerSource attemptCount)
        else mret ()
    end.

(** The body of the closure [function() {callbackFunction(attemptCount++)}]
    for the captured value [attemptCount]. *)
Definition findCloudPlayerSource_retry (attemptCount : Z) : JS () :=
  let '(argument, _) := post_increment attemptCount in
  findCloudPlayerSource (Some argument).

(** [regexp.exec(playerScript)] for the pattern of [findbitShareSource]:
    the text [url: '], a greedy group of any characters, a group of one
    character and [avi], and a closing quote.  The result is the two groups
    of the leftmost match, the first group as long as the line allows.
    Strings are byte strings; the line terminators are line feed and
    carriage return. *)
Definition is_line_terminator (c : ascii) : bool :=
  Ascii.eqb c (ascii_of_nat 10) || Ascii.eqb c (ascii_of_nat 13).

Fixpoint line_of (s : string) : string :=
  match s with
  | EmptyString => EmptyString
  | String c r => if is_line_terminator c then EmptyString else String c (line_of r)
  end.

Fixpoint last_avi (line : string) : option (string * string) :=
  match line with
  | EmptyString => None
  | String c r =>
      match last_avi r with
      | Some (g1, g2) => Some (String c g1, g2)
      | None =>
          if String.prefix "avi'" r then Some (EmptyString, String c "avi")
          else None
      end
  end.

Fixpoint string_drop (n : nat) (s : string) : string :=
  match n, s with
  | S n, String _ r => string_drop n r
  | _, _ => s
  end.

Fixpoint regexp_exec (s : string) : option (string * string) :=
  match s with
  | EmptyString => None
  | String _ r =>
      if String.prefix "url: '" s then
        match last_avi (line_of (string_drop 6 s)) with
        | Some groups => Some groups
        | None => regexp_exec r
        end
      else regexp_exec r
  end.

(** http://bitshare.com/ *)
Definition findbitShareSource : JS () :=
  mc ← get mediaContent;
  if mc is Some _ then mret ()
  else
    streamFlashElement ← gets (λ w, Page.stream_flash (page w));
    if streamFlashElement is Some scriptElements then
      if (length scriptElements <? 2)%nat then mret ()
      else
        playerScript ← deref (scriptElements !! 1%nat);
        if (String.length playerScript <? 1)%nat then mret ()
        else
          if regexp_exec playerScript is Some (match1, match2) then
            let mediaUrl := (match1 ++ match2)%string in
            set with_mediaContent (Some MediaContent.new_Array);;
            set_mediaContent (with_title (Some "Unknown"));;
            set_mediaContent (with_source (Some mediaUrl));;
            set_mediaContent (with_thumb (Some ""));;
            set_mediaContent (with_subtitle (Some ""));;
            onMediaSourceSearchSuccess
          else mret ()
    else mret ().

(** Add all resource search function to this array. *)
Definition resourceSearchFunctions : list (JS ()) :=
  [ findCloudPlayerSource None; findbitShareSource ].

(** The video source search function tries to find a video source using all
    of the defined video source seekers *)
Fixpoint searchVideoSource_from (functions : list (JS ())) : JS () :=
  match functions with
  | [] => mret ()
  | searchFunction :: rest =>
      mc ← get mediaContent;
      if mc is Some _ then mret ()
      else
        searchFunction;;
        searchVideoSource_from rest
  end.

Definition searchVideoSource : JS () :=
  searchVideoSource_from resourceSearchFunctions.

(** Retry resource search *)
Definition retrySourceSearch : JS () := searchVideoSource.

(** ** Construction *)

(** Initialize Cast media player *)
Definition initializeCastPlayer : JS () :=
  available ← gets (λ w, Page.chrome_cast_isAvailable (page w));
  if negb available then
    setTimeout cb_initializeCastPlayer
  else
    call chrome_cast_initialize;;
    initializeUI;;
    searchVideoSource.

(** The fields set by the constructor before it calls
    [initializeCastPlayer]. *)
Definition CastPlayer_fields : CastPlayer :=
  {| deviceState := DEVICE_STATE.IDLE;
     currentMediaSession := None;
     currentVolume := ratio 1 2;
     autoplay := true;
     session := None;
     castPlayerState := PLAYER_STATE.IDLE;
     audio := true;
     mediaContent := None;
     currentMediaTime := number_of_Z 0;
     currentMediaDuration := number_of_Z (-1);
     timer := None;
     progressFlag := true;
     timerStep := 1000 |}.

(** The world in which [new CastPlayer()] runs on page [p]. *)
Definition fresh_world (p : Page.t) : World :=
  {| this := CastPlayer_fields;
     document := mkDocument None None None;
     window := mkWindow ∅ [] 1%positive;
     cast := [];
     page := p |}.

Definition new_CastPlayer (p : Page.t) : World :=
  exec initializeCastPlayer (fresh_world p).

(** ** The event loop *)

(** The entry points of the controller: the listeners bound by
    [initializeUI], the callbacks handed to the cast SDK, the interval and
    timeout callbacks, and [stopMedia], which is public but bound to no
    control.  [E_page] is the page changing under the controller (a player
    script finishing to load). *)
Inductive Event : Type :=
  | E_launchApp
  | E_stopApp
  | E_seekMedia (event : MouseEvent.t)
  | E_muteMedia (event : MouseEvent.t)
  | E_setReceiverVolume (event : MouseEvent.t)
  | E_playMedia
  | E_pauseMedia
  | E_stopMedia
  | E_retrySourceSearch
  | E_onInitSuccess
  | E_onError
  | E_mediaCommandSuccessCallback
  | E_sessionListener (e : option Session.t)
  | E_receiverListener (e : string)
  | E_onRequestSessionSuccess (e : Session.t)
  | E_onLaunchError
  | E_onStopAppSuccess
  | E_onMediaDiscovered (mediaSession : Media.t)
  | E_onLoadMediaError
  | E_onMediaStatusUpdate (e : UpdateArg)
  | E_onSeekSuccess
  | E_interval (handle : positive)
  | E_timeout (index : nat)
  | E_page (p : Page.t).

Definition timeout_handler (callback : TimeoutCallback) : JS () :=
  match callback with
  | cb_initializeCastPlayer => initializeCastPlayer
  | cb_setProgressFlag => setProgressFlag
  | cb_findCloudPlayerSource attemptCount =>
      findCloudPlayerSource_retry attemptCount
  end.

(** The timeout at [index] of the pending ones expires: it leaves the table
    and its callback runs. *)
Definition fire_timeout (index : nat) : JS () :=
  pending ← gets (λ w, timeouts (window w));
  match pending !! index with
  | Some callback =>
      modify (on_window (λ b,
        mkWindow (intervals b) (delete index (timeouts b)) (next_handle b)));;
      timeout_handler callback
  | None => mret ()
  end.

(** The interval [handle] ticks if it is live. *)
Definition fire_interval (handle : positive) : JS () :=
  live ← gets (λ w, intervals (window w));
  if decide (handle ∈ live) then incrementMediaTime else mret ().

Definition handler (ev : Event) : JS () :=
  match ev with
  | E_launchApp => launchApp
  | E_stopApp => stopApp
  | E_seekMedia event => seekMedia event
  | E_muteMedia event => muteMedia event
  | E_setReceiverVolume event => setReceiverVolume false event
  | E_playMedia => playMedia
  | E_pauseMedia => pauseMedia
  | E_stopMedia => stopMedia
  | E_retrySourceSearch => retrySourceSearch
  | E_onInitSuccess => onInitSuccess
  | E_onError => onError
  | E_mediaCommandSuccessCallback => mediaCommandSuccessCallback
  | E_sessionListener e => sessionListener e
  | E_receiverListener e => receiverListener e
  | E_onRequestSessionSuccess e => onRequestSessionSuccess e
  | E_onLaunchError => onLaunchError
  | E_onStopAppSuccess => onStopAppSuccess "Session stopped"
  | E_onMediaDiscovered mediaSession => onMediaDiscovered "loadMedia" mediaSession
  | E_onLoadMediaError => onLoadMediaError
  | E_onMediaStatusUpdate e => onMediaStatusUpdate e
  | E_onSeekSuccess => onSeekSuccess
  | E_interval handle => fire_interval handle
  | E_timeout index => fire_timeout index
  | E_page p => modify (with_page p)
  end.

(** One turn of the event loop: the handler runs to completion or to its
    exception, and the loop goes on from the world it leaves. *)
Definition step (w : World) (ev : Event) : World := exec (handler ev) w.

Definition run (evs : list Event) (w : World) : World := fold_left step evs w.

(** The worlds the controller can be in: those reached from its
    construction on some page by some sequence of events. *)
Definition reachable (w : World) : Prop :=
  ∃ (p : Page.t) (evs : list Event), w = run evs (new_CastPlayer p).

(** ** Observations *)

(** The progress timer is running: [this.timer] holds a live interval. *)
Definition timer_running (w : World) : bool :=
  match timer (this w) with
  | Some h => bool_decide (h ∈ intervals (window w))
  | None => false
  end.

(** No interval is live at all. *)
Definition no_timer (w : World) : Prop := intervals (window w) = ∅.

(** ** Invariants and the properties as the specification words them *)

(** Every live interval is the one held in [this.timer], none is live
    without a media session, and [autoplay] keeps its initial value. *)
Definition timer_inv (w : World) : Prop :=
  (∀ h, h ∈ intervals (window w) → timer (this w) = Some h) ∧
  (currentMediaSession (this w) = None → intervals (window w) = ∅) ∧
  autoplay (this w) = true.

(** The specification's timer invariant: the timer runs exactly while the
    player is PLAYING. *)
Definition timer_iff_PLAYING (w : World) : Prop :=
  (castPlayerState (this w) = PLAYER_STATE.PLAYING → timer_running w = true) ∧
  (castPlayerState (this w) ≠ PLAYER_STATE.PLAYING → no_timer w).

(** A status push that reports the end of the media. *)
Definition finished (e : UpdateArg) : bool :=
  loose_eq (e_idleReason e) "FINISHED" && loose_eq (e_playerState e) "IDLE".

(** The events after which no interval is left running when they take the
    player out of PLAYING. *)
Definition clears_timer_on_exit (ev : Event) : bool :=
  match ev with
  | E_pauseMedia | E_stopMedia | E_onStopAppSuccess | E_interval _ => true
  | E_onMediaStatusUpdate e => finished e
  | _ => false
  end.

(** The events that enter PLAYING with a timer: play on loaded or paused
    media, and the success callback of a load. *)
Definition starts_timer (w : World) (ev : Event) : bool :=
  match ev with
  | E_playMedia =>
      ((castPlayerState (this w) =? PLAYER_STATE.LOADED)%string
       || (castPlayerState (this w) =? PLAYER_STATE.PAUSED)%string)
      && bool_decide (currentMediaSession (this w) ≠ None)
  | E_onMediaDiscovered _ => true
  | _ => false
  end.

(** The specification's account of a status push that reports the end of
    the media. *)
Definition finished_push_resets_all (w' : World) : Prop :=
  castPlayerState (this w') = PLAYER_STATE.STOPPED ∧
  timer_running w' = false ∧
  js_eq (currentMediaTime (this w')) (number_of_Z 0) = true ∧
  progress_width (document w') = Some 0.

(** The specification's progress width:
    [round(totalWidthPx * currentTime / duration)] clamped to
    [0, totalWidthPx]; [round] is [Math.round]. *)
Definition Math_round (x : number) : number :=
  Math_floor (js_add x (ratio 1 2)).

Definition spec_progress_width (totalWidthPx : Z) (currentTime duration : number)
  : option Z :=
  let width :=
    Math_round
      (js_div (js_mul (number_of_Z totalWidthPx) currentTime) duration) in
  integer_part
    (if js_lt width (number_of_Z 0) then number_of_Z 0
     else if js_lt (number_of_Z totalWidthPx) width then number_of_Z totalWidthPx
     else width).

(** The specification's account of a successful session stop. *)
Definition stop_resets_all (w' : World) : Prop :=
  session (this w') = None ∧
  deviceState (this w') = DEVICE_STATE.IDLE ∧
  castPlayerState (this w') = PLAYER_STATE.IDLE ∧
  timer_running w' = false ∧
  currentMediaTime (this w') = number_of_Z 0 ∧
  currentMediaDuration (this w') = number_of_Z 0.

(** The transport commands. *)
Definition transport_command (ev : Event) : bool :=
  match ev with
  | E_playMedia | E_pauseMedia | E_stopMedia | E_seekMedia _
  | E_muteMedia _ | E_setReceiverVolume _ => true
  | _ => false
  end.

(** The specification's account of commands issued while IDLE. *)
Definition idle_commands_are_noops : Prop :=
  ∀ (w : World) (ev : Event),
    transport_command ev = true →
    castPlayerState (this w) = PLAYER_STATE.IDLE →
    handler ev w = (Normal (), w).

(** The specification's account of a status push other than idle/finished:
    the receiver's player state and current time are mirrored. *)
Definition push_is_mirrored (e : MediaStatus.t) (w' : World) : Prop :=
  castPlayerState (this w') = MediaStatus.playerState e ∧
  js_eq (currentMediaTime (this w')) (MediaStatus.currentTime e) = true.

(** The specification's seek target: linear in the offset, clamped to the
    duration from the bar width on. *)
Definition spec_seek_target (offset : number) (duration : number) : number :=
  if js_lt offset (number_of_Z PROGRESS_BAR_WIDTH)
  then js_div (js_mul offset duration) (number_of_Z PROGRESS_BAR_WIDTH)
  else duration.

(** Whether number [x] is number [y], bit for bit. *)
Definition same_number (x y : number) : bool :=
  match x, y with
  | S754_zero s, S754_zero s' => Bool.eqb s s'
  | S754_infinity s, S754_infinity s' => Bool.eqb s s'
  | S754_nan, S754_nan => true
  | S754_finite s m e, S754_finite s' m' e' =>
      Bool.eqb s s' && Pos.eqb m m' && Z.eqb e e'
  | _, _ => false
  end.

(** Whether a click at the full width of the bar seeks to the duration
    itself, for every duration of a whole number of seconds below [n]. *)
Definition whole_seconds_seek_to_the_end (n : Z) : bool :=
  forallb
    (λ k : nat,
       same_number
         (seek_target (number_of_Z PROGRESS_BAR_WIDTH) (number_of_Z (Z.of_nat k)))
         (number_of_Z (Z.of_nat k)))
    (seq 0 (Z.to_nat n)).

(** The timers created so far, by [setInterval] or [setTimeout]. *)
Definition timers_created (w : World) : nat :=
  Pos.to_nat (next_handle (window w)) - 1.

(** ** Example pages, objects and runs *)

(** A streamcloud page whose jwplayer has a one-item playlist. *)
Definition streamcloud_page : Page.t :=
  {| Page.chrome_cast_isAvailable := true;
     Page.jwplayer :=
       jw_defined (Some (Some
         [ {| JwMedia.title := Some "Big Buck Bunny";
              JwMedia.file := Some "/video/bunny.mp4";
              JwMedia.image := Some "/img/bunny.jpg" |} ]));
     Page.location_host := "streamcloud.eu";
     Page.page_headers := None;
     Page.stream_flash := None |}.

(** A page on which jwplayer is never defined and no other locator
    applies. *)
Definition page_without_player : Page.t :=
  {| Page.chrome_cast_isAvailable := true;
     Page.jwplayer := jw_undefined;
     Page.location_host := "example.org";
     Page.page_headers := None;
     Page.stream_flash := None |}.

(** A page with a jwplayer playlist and a bitshare player script. *)
Definition page_with_two_players : Page.t :=
  {| Page.chrome_cast_isAvailable := true;
     Page.jwplayer :=
       jw_defined (Some (Some
         [ {| JwMedia.title := Some "Big Buck Bunny";
              JwMedia.file := Some "http://cdn.example.org/bunny.mp4";
              JwMedia.image := None |} ]));
     Page.location_host := "example.org";
     Page.page_headers := None;
     Page.stream_flash :=
       Some [ "var a = 1;";
              "clip: { url: 'http://bitshare.com/stream/film.avi', autoPlay: true }" ] |}.

(** A bitshare page without jwplayer playlist. *)
Definition bitshare_page : Page.t :=
  {| Page.chrome_cast_isAvailable := true;
     Page.jwplayer := jw_defined (Some (Some []));
     Page.location_host := "bitshare.com";
     Page.page_headers := None;
     Page.stream_flash :=
       Some [ "var a = 1;";
              "clip: { url: 'http://bitshare.com/stream/film.avi', autoPlay: true }" ] |}.

Definition a_session : Session.t :=
  {| Session.sessionId := "session-1"; Session.media := [] |}.

(** Media of 120 seconds, as the receiver reports it after a load. *)
Definition a_media : Media.t :=
  {| Media.mediaSessionId := 1;
     Media.sessionId := "session-1";
     Media.playerState := "PLAYING";
     Media.currentTime := number_of_Z 0;
     Media.duration := number_of_Z 120 |}.

Definition click_on_bar (offsetX : Z) : MouseEvent.t :=
  {| MouseEvent.currentTarget_id := "progress_bg";
     MouseEvent.offsetX := number_of_Z offsetX;
     MouseEvent.offsetY := number_of_Z 0 |}.

Definition click_on_audio : MouseEvent.t :=
  {| MouseEvent.currentTarget_id := "audio_on";
     MouseEvent.offsetX := number_of_Z 5;
     MouseEvent.offsetY := number_of_Z 5 |}.

(** The user starts casting and the load succeeds: the player is PLAYING
    with its timer running. *)
Definition cast_started : list Event :=
  [ E_launchApp; E_onRequestSessionSuccess a_session;
    E_onMediaDiscovered a_media ].

Definition playing_world : World := run cast_started (new_CastPlayer streamcloud_page).

(** ... then three seconds pass. *)
Definition three_seconds_in : World :=
  run [ E_interval 1%positive; E_interval 1%positive; E_interval 1%positive ]
    playing_world.

(** ... or the user clicks in the middle of the bar. *)
Definition seek_trace : list Event :=
  cast_started ++ [ E_seekMedia (click_on_bar 300) ].

(** Media of 120.5 seconds, and a run that brings the player to second
    120 of it by a click near the end of the bar. *)
Definition long_media : Media.t :=
  {| Media.mediaSessionId := 2;
     Media.sessionId := "session-1";
     Media.playerState := "PLAYING";
     Media.currentTime := number_of_Z 0;
     Media.duration := ratio 241 2 |}.

Definition near_the_end : World :=
  run [ E_launchApp; E_onRequestSessionSuccess a_session;
        E_onMediaDiscovered long_media;
        E_seekMedia (click_on_bar 598); E_onSeekSuccess ]
    (new_CastPlayer streamcloud_page).

(** ... and the world in which the next tick, having advanced the time to
    second 121, redraws the bar. *)
Definition ticking_over : World :=
  on_this (with_currentMediaTime (number_of_Z 121)) near_the_end.

(** The receiver reports the end of the media. *)
Definition finished_status : MediaStatus.t :=
  {| MediaStatus.idleReason := Some "FINISHED";
     MediaStatus.playerState := "IDLE";
     MediaStatus.currentTime := number_of_Z 0 |}.

(** The receiver reports second 60, paused or playing. *)
Definition status_at_60 (playerState : string) : MediaStatus.t :=
  {| MediaStatus.idleReason := None;
     MediaStatus.playerState := playerState;
     MediaStatus.currentTime := number_of_Z 60 |}.

(** The retry timeout of [findCloudPlayerSource] expires [n] times. *)
Definition retries (n : nat) : list Event := replicate n (E_timeout 0).

(** * Properties *)

(** ** Symbolic execution of handlers *)

#[local] Set Warnings "-clear-no-such-hyp".

Ltac js_unfold :=
  cbv [exec completes step handler default to_number id
       mbind mret JS_bind JS_ret throw gets modify deref get set call
       console_log updateMediaControlUI initializeUI
       onMediaSourceSearchSuccess] in *.

Ltac js_fields :=
  cbn [fst snd this document window cast page searchVideoSource_from
       String.eqb Ascii.eqb Bool.eqb andb orb negb
       on_this on_document on_window on_cast with_page
       deviceState currentMediaSession currentVolume autoplay session
       castPlayerState audio mediaContent currentMediaTime
       currentMediaDuration timer progressFlag timerStep
       intervals timeouts next_handle
       progress_width progress_indicator_marginLeft audio_bg_level_height
       with_deviceState with_currentMediaSession with_currentVolume
       with_autoplay with_session with_castPlayerState with_audio
       with_mediaContent with_currentMediaTime with_currentMediaDuration
       with_timer with_progressFlag with_timerStep] in *.

(** Case analysis on the innermost undecided test of the goal. *)
Ltac js_case :=
  match goal with
  | |- context [match ?x with _ => _ end] =>
      lazymatch x with
      | context [match _ with _ => _ end] => fail
      | _ => destruct x eqn:?
      end
  end.

(** Facts on the outcome of string comparisons. *)
Ltac js_strings :=
  repeat match goal with
  | H : (_ =? _)%string = true |- _ => apply String.eqb_eq in H
  | H : (_ =? _)%string = false |- _ => apply String.eqb_neq in H
  | H : (_ || _) = true |- _ => apply orb_true_iff in H as [H|H]
  | H : (_ || _) = false |- _ => apply orb_false_iff in H as [? ?]
  | H : (_ && _) = true |- _ => apply andb_true_iff in H as [? ?]
  | H : negb _ = true |- _ => apply negb_true_iff in H
  | H : negb _ = false |- _ => apply negb_false_iff in H
  end.

(** The procedures called by the handlers. *)
Ltac js_procs :=
  unfold fire_interval, fire_timeout, timeout_handler, retrySourceSearch,
    searchVideoSource, resourceSearchFunctions,
    initializeCastPlayer, findCloudPlayerSource_retry, post_increment,
    findCloudPlayerSource, findbitShareSource, set_mediaContent,
    grepTitleFromStreamCloudPage,
    onRequestSessionSuccess, sessionListener, onMediaDiscovered,
    onStopAppSuccess, onLoadMediaError, onLaunchError, onInitSuccess,
    onError, mediaCommandSuccessCallback, receiverListener, onSeekSuccess,
    launchApp, stopApp, playMedia, pauseMedia, stopMedia, seekMedia,
    muteMedia, setReceiverVolume, loadMedia,
    onMediaStatusUpdate, updateProgressBar, incrementMediaTime,
    updateProgressBarByTimer, setProgressFlag, resetProgressAndDuration,
    startProgressTimer, setInterval, clearInterval, setTimeout,
    set_progress_width, set_progress_indicator_marginLeft,
    set_audio_bg_level_height in *.

Ltac js_run :=
  unfold exec, step, handler in *;
  repeat (js_procs; js_unfold; js_fields; try js_case).

(** ** The descriptor is written once *)

Lemma step_keeps_mediaContent (w : World) (ev : Event) (d : MediaContent.t) :
  mediaContent (this w) = Some d →
  mediaContent (this (step w ev)) = Some d.
Proof.
  intros Hd. destruct w as [c doc win calls pg]. simpl in Hd.
  destruct ev; js_run; try rewrite Hd in *; js_fields; congruence.
Qed.

Lemma run_keeps_mediaContent (evs : list Event) (w : World) (d : MediaContent.t) :
  mediaContent (this w) = Some d →
  mediaContent (this (run evs w)) = Some d.
Proof.
  revert w. induction evs as [|ev evs IH]; intros w Hd; simpl.
  - exact Hd.
  - apply IH. by apply step_keeps_mediaContent.
Qed.

(** ** The progress timer is the only interval *)

Lemma step_timer_inv (w : World) (ev : Event) :
  timer_inv w → timer_inv (step w ev).
Proof.
  destruct w as [c doc win calls pg]. unfold timer_inv. js_fields.
  intros (Hlive & Hnone & Hauto).
  destruct ev; js_run; simplify_eq; js_fields;
    (split; [|split]); try done; try set_solver.
Qed.

Lemma new_CastPlayer_timer_inv (p : Page.t) : timer_inv (new_CastPlayer p).
Proof.
  unfold new_CastPlayer, fresh_world, timer_inv.
  js_run; js_fields; (split; [|split]); try done; set_solver.
Qed.

Lemma run_timer_inv (evs : list Event) (w : World) :
  timer_inv w → timer_inv (run evs w).
Proof.
  revert w. induction evs as [|ev evs IH]; intros w Hw; simpl.
  - exact Hw.
  - apply IH. by apply step_timer_inv.
Qed.

Lemma reachable_timer_inv (w : World) : reachable w → timer_inv w.
Proof.
  intros (p & evs & ->). apply run_timer_inv, new_CastPlayer_timer_inv.
Qed.

Lemma no_timer_not_running (w : World) : no_timer w → timer_running w = false.
Proof.
  unfold no_timer, timer_running. intros ->.
  destruct (timer (this w)); [|done]. by apply bool_decide_eq_false.
Qed.

Lemma exit_clears_timer (w : World) (ev : Event) :
  timer_inv w →
  clears_timer_on_exit ev = true →
  castPlayerState (this w) = PLAYER_STATE.PLAYING →
  castPlayerState (this (step w ev)) ≠ PLAYER_STATE.PLAYING →
  no_timer (step w ev).
Proof.
  destruct w as [c doc win calls pg]. unfold timer_inv, no_timer.
  destruct c. js_fields.
  intros (Hlive & Hnone & Hauto) Hev ->.
  destruct ev; try discriminate Hev; simpl in Hev; unfold finished in *;
    js_run; simplify_eq; js_fields; try done; try set_solver.
Qed.

Lemma entry_starts_timer (w : World) (ev : Event) :
  timer_inv w →
  starts_timer w ev = true →
  castPlayerState (this (step w ev)) = PLAYER_STATE.PLAYING ∧
  timer_running (step w ev) = true.
Proof.
  destruct w as [c doc win calls pg]. unfold timer_inv, timer_running.
  destruct c. js_fields.
  intros (Hlive & Hnone & Hauto) Hev.
  destruct ev; try discriminate Hev; simpl in Hev.
  - apply andb_true_iff in Hev as [Hst Hm]. apply bool_decide_eq_true in Hm.
    js_strings; subst; js_run; simplify_eq; js_fields; try done;
      (split; [done|apply bool_decide_eq_true; set_solver]).
  - subst. js_run; simplify_eq; js_fields; try done;
      (split; [done|apply bool_decide_eq_true; set_solver]).
Qed.

Lemma playing_world_reachable : reachable playing_world.
Proof. by exists streamcloud_page, cast_started. Qed.

(** ** The model on examples *)

Example playing_world_state :
  castPlayerState (this playing_world) = PLAYER_STATE.PLAYING ∧
  timer (this playing_world) = Some 1%positive ∧
  timer_running playing_world = true ∧
  currentMediaDuration (this playing_world) = number_of_Z 120.
Proof. vm_compute. done. Qed.

Example streamcloud_page_located :
  mediaContent (this (new_CastPlayer streamcloud_page))
  = Some {| MediaContent.title := Some "Big Buck Bunny";
            MediaContent.source := Some "http://streamcloud.eu/video/bunny.mp4";
            MediaContent.thumb := Some "/img/bunny.jpg";
            MediaContent.subtitle := Some "" |}.
Proof. reflexivity. Qed.

Example regexp_exec_longest_first_group :
  regexp_exec "x url: 'http://a/b.avi' y url: 'c.avi'"
  = Some ("http://a/b.avi' y url: 'c", ".avi").
Proof. reflexivity. Qed.

Example regexp_exec_needs_a_character_before_avi :
  regexp_exec "url: 'avi'" = None ∧ regexp_exec "url: 'Xavi'" = Some ("", "Xavi").
Proof. split; reflexivity. Qed.

Example parseInt_truncates :
  parseInt (ratio 7 2) = number_of_Z 3 ∧
  parseInt (ratio (-7) 2) = number_of_Z (-3).
Proof. split; vm_compute; reflexivity. Qed.

(** Below a millionth and from 10^21 on the string of a number is in
    exponent notation, of which [parseInt] reads the first digit. *)
Example parseInt_exponent_notation :
  parseInt (ratio 5 10000000) = number_of_Z 5 ∧
  parseInt (number_of_Z (10 ^ 21)) = number_of_Z 1 ∧
  parseInt (ratio 1 1000000) = number_of_Z 0.
Proof. repeat split; vm_compute; reflexivity. Qed.

(** Products and quotients are rounded to binary64: 600 * 8.11 / 81.1 is
    just above 60 and 375 * 36.8 / 600 just below 23. *)
Example binary64_rounding :
  Math_ceil (js_div (js_mul (number_of_Z 600) (ratio 811 100)) (ratio 811 10))
    = number_of_Z 61 ∧
  parseInt (js_div (js_mul (number_of_Z 375) (ratio 368 10)) (number_of_Z 600))
    = number_of_Z 22.
Proof. split; vm_compute; reflexivity. Qed.

(** ** C1: the timer and the PLAYING state *)

(** The run of [seek_trace] ends in SEEKING with the timer still live. *)
Lemma seek_trace_outcome :
  let w := run seek_trace (new_CastPlayer streamcloud_page) in
  castPlayerState (this w) = PLAYER_STATE.SEEKING ∧ timer_running w = true.
Proof. vm_compute. done. Qed.

(** C1, as stated, fails: after the user starts casting, the load succeeds
    and the user clicks on the bar, the player is SEEKING, not PLAYING, and
    the progress timer is still running. *)
Lemma C1_timer_runs_while_SEEKING :
  ¬ timer_iff_PLAYING (run seek_trace (new_CastPlayer streamcloud_page)).
Proof.
  intros [_ Hstopped].
  destruct seek_trace_outcome as [Hstate Hrunning].
  rewrite no_timer_not_running in Hrunning; [done|].
  apply Hstopped. rewrite Hstate. done.
Qed.

(** C1, amended: in every reachable world every live interval is the one
    held in [this.timer]; pause, stop, session stop, a finished push and a
    timer tick leave no interval live when they take the player out of
    PLAYING; play on loaded or paused media and a successful load enter
    PLAYING with the timer running. *)
Theorem C1_progress_timer_discipline (w : World) :
  reachable w →
  (∀ h, h ∈ intervals (window w) → timer (this w) = Some h) ∧
  (∀ ev, clears_timer_on_exit ev = true →
         castPlayerState (this w) = PLAYER_STATE.PLAYING →
         castPlayerState (this (step w ev)) ≠ PLAYER_STATE.PLAYING →
         no_timer (step w ev)) ∧
  (∀ ev, starts_timer w ev = true →
         castPlayerState (this (step w ev)) = PLAYER_STATE.PLAYING ∧
         timer_running (step w ev) = true).
Proof.
  intros Hw. apply reachable_timer_inv in Hw. split; [|split].
  - apply Hw.
  - intros ev. by apply exit_clears_timer.
  - intros ev. by apply entry_starts_timer.
Qed.

(** The discipline at work: pausing the playing example stops its timer,
    and the load that made it PLAYING started one. *)
Lemma C1_progress_timer_discipline_witness :
  no_timer (step playing_world E_pauseMedia) ∧
  timer_running (step (run [E_launchApp; E_onRequestSessionSuccess a_session]
                         (new_CastPlayer streamcloud_page))
                   (E_onMediaDiscovered a_media)) = true.
Proof.
  split.
  - destruct (C1_progress_timer_discipline playing_world playing_world_reachable)
      as (_ & Hexit & _).
    apply (Hexit E_pauseMedia); [reflexivity|reflexivity|].
    vm_compute. discriminate.
  - eapply (C1_progress_timer_discipline
              (run [E_launchApp; E_onRequestSessionSuccess a_session]
                 (new_CastPlayer streamcloud_page))).
    + by eexists _, _.
    + reflexivity.
Defined.

(** ** C2: the receiver reports the end of the media *)

(** C2, as stated, fails: three seconds into the example the receiver
    reports idle/finished; the player stops and the bar is reset, but
    [currentMediaTime] is still 3. *)
Lemma C2_finished_push_keeps_currentMediaTime :
  ¬ finished_push_resets_all
      (exec (onMediaStatusUpdate (Status finished_status)) three_seconds_in).
Proof.
  intros (_ & _ & Htime & _). vm_compute in Htime. discriminate.
Qed.

(** C2, amended: whatever the prior world, a status push with idleReason
    FINISHED and playerState IDLE completes, sets castPlayerState to
    STOPPED, leaves the timer cleared (no interval at all in a reachable
    world) and resets the displayed width to zero and the indicator to its
    origin. *)
Theorem C2_finished_push_stops (w : World) (e : MediaStatus.t) :
  MediaStatus.idleReason e = Some "FINISHED" →
  MediaStatus.playerState e = "IDLE" →
  let w' := exec (onMediaStatusUpdate (Status e)) w in
  completes (onMediaStatusUpdate (Status e)) w = true ∧
  castPlayerState (this w') = PLAYER_STATE.STOPPED ∧
  timer_running w' = false ∧
  (reachable w → no_timer w') ∧
  progress_width (document w') = Some 0 ∧
  progress_indicator_marginLeft (document w') = Some (-21 - PROGRESS_BAR_WIDTH).
Proof.
  intros Hreason Hstate w'. subst w'.
  assert (Hinv : reachable w → timer_inv w) by apply reachable_timer_inv.
  destruct w as [c doc win calls pg]. destruct e as [reason st time].
  simpl in Hreason, Hstate. subst reason st.
  unfold timer_inv, no_timer, timer_running in *.
  js_run; js_fields; repeat split; try done.
  - apply bool_decide_eq_false. set_solver.
  - intros Hw. destruct (Hinv Hw) as (Hlive & _). set_solver.
  - intros Hw. destruct (Hinv Hw) as (Hlive & _). set_solver.
Qed.

Lemma C2_finished_push_stops_witness :
  let w' := exec (onMediaStatusUpdate (Status finished_status)) playing_world in
  castPlayerState (this w') = PLAYER_STATE.STOPPED ∧
  no_timer w' ∧
  progress_width (document w') = Some 0.
Proof.
  destruct (C2_finished_push_stops playing_world finished_status)
    as (_ & Hstate & _ & Htimer & Hwidth & _); [reflexivity|reflexivity|].
  split; [exact Hstate|]. split; [|exact Hwidth].
  apply Htimer. exists streamcloud_page, cast_started. reflexivity.
Defined.

(** ** C3: the displayed width of the progress bar *)

(** C3, as stated, fails on its own example: for a duration of 120 seconds
    and the bar of 600 pixels, a push with currentTime 60 displays 301
    pixels, not round(600 * 60 / 120) = 300. *)
Lemma C3_push_at_60_displays_301 :
  progress_width
    (document (exec (onMediaStatusUpdate (Status (status_at_60 "PLAYING")))
                 playing_world))
  ≠ spec_progress_width PROGRESS_BAR_WIDTH (number_of_Z 60) (number_of_Z 120).
Proof. vm_compute. discriminate. Qed.

(** C3, amended: with a media session, a receiver push other than
    idle/finished assigns to the bar the width
    Math.ceil(600 * currentTime / duration + 1) and places the indicator
    Math.ceil(600 * currentTime / duration) past its origin, in JavaScript
    number arithmetic and without a clamp (301 pixels in the example of 60
    of 120 seconds); an assigned width that is not a finite number or is
    negative leaves the bar as it was.  When the timer redraws the bar for
    a positive duration it computes
    pp = Math.floor(600 * currentMediaTime / currentMediaDuration): unless
    the display is suppressed it assigns pp to the bar and places the
    indicator pp past its origin, and while it is suppressed the bar only
    gets the width 0 if it had none; pp above 600 clears the timer and
    makes the player and the device IDLE, and otherwise the player state
    and the timers are left as they were. *)
Theorem C3_displayed_width :
  (∀ (w : World) (e : MediaStatus.t) (m : Media.t),
     finished (Status e) = false →
     currentMediaSession (this w) = Some m →
     let x := js_div (js_mul (number_of_Z PROGRESS_BAR_WIDTH)
                        (MediaStatus.currentTime e))
                (Media.duration m) in
     let w' := exec (onMediaStatusUpdate (Status e)) w in
     progress_width (document w')
       = css_length (Math_ceil (js_add x (number_of_Z 1)))
           (progress_width (document w)) ∧
     progress_indicator_marginLeft (document w')
       = css_margin (js_add indicator_origin (Math_ceil x))
           (progress_indicator_marginLeft (document w))) ∧
  progress_width
    (document (exec (onMediaStatusUpdate (Status (status_at_60 "PLAYING")))
                 playing_world)) = Some 301 ∧
  (∀ (w : World),
     js_lt (number_of_Z 0) (currentMediaDuration (this w)) = true →
     let pp := Math_floor
                 (js_div (js_mul (number_of_Z PROGRESS_BAR_WIDTH)
                            (currentMediaTime (this w)))
                    (currentMediaDuration (this w))) in
     let shown := if progress_width (document w) is None then Some 0
                  else progress_width (document w) in
     let w' := exec updateProgressBarByTimer w in
     (progressFlag (this w) = true →
        progress_width (document w') = css_length pp shown ∧
        progress_indicator_marginLeft (document w')
          = css_margin (js_add indicator_origin pp)
              (progress_indicator_marginLeft (document w))) ∧
     (progressFlag (this w) = false →
        progress_width (document w') = shown ∧
        progress_indicator_marginLeft (document w')
          = progress_indicator_marginLeft (document w)) ∧
     (js_lt (number_of_Z PROGRESS_BAR_WIDTH) pp = true →
        castPlayerState (this w') = PLAYER_STATE.IDLE ∧
        deviceState (this w') = DEVICE_STATE.IDLE ∧
        timer_running w' = false) ∧
     (js_lt (number_of_Z PROGRESS_BAR_WIDTH) pp = false →
        castPlayerState (this w') = castPlayerState (this w) ∧
        deviceState (this w') = deviceState (this w) ∧
        window w' = window w)).
Proof.
  split; [|split].
  - intros w e m Hfin Hm x w'. subst w' x.
    destruct w as [c doc win calls pg].
    destruct c as [dev cms vol auto sess st aud mc time dur tm flag ms].
    simpl in Hm. subst cms.
    unfold finished in Hfin. unfold onMediaStatusUpdate, updateProgressBar.
    rewrite Hfin. cbn [e_currentTime]. unfold bar_position.
    js_run; js_fields. done.
  - vm_compute. reflexivity.
  - intros w Hd pp shown w'. subst w' shown pp.
    destruct w as [c doc win calls pg].
    destruct c as [dev cms vol auto sess st aud mc time dur tm flag ms].
    destruct doc as [width margin height].
    cbn [this document currentMediaTime currentMediaDuration progressFlag
         progress_width progress_indicator_marginLeft castPlayerState
         deviceState] in *.
    unfold timer_running.
    js_run; js_fields; try congruence;
      repeat split; intros; simplify_eq; try done; try congruence.
    all: try (apply bool_decide_eq_false; set_solver).
Qed.

(** The bar after the push of the example, and a tick that overruns the
    bar: at second 121 of 120.5 the timer computes 602 pixels, displays
    them and makes the player IDLE. *)
Lemma C3_displayed_width_witness :
  progress_width
    (document (exec (onMediaStatusUpdate (Status (status_at_60 "PLAYING")))
                 playing_world)) = Some 301 ∧
  progress_width (document (exec updateProgressBarByTimer ticking_over))
    = Some 602 ∧
  castPlayerState (this (exec updateProgressBarByTimer ticking_over))
    = PLAYER_STATE.IDLE.
Proof.
  destruct C3_displayed_width as (Hpush & Hexample & Htick).
  split; [exact Hexample|].
  destruct (Htick ticking_over) as (Hshown & _ & Hover & _); [reflexivity|].
  split.
  - destruct Hshown as [Hwidth _]; [reflexivity|].
    rewrite Hwidth. vm_compute. reflexivity.
  - apply Hover. vm_compute. reflexivity.
Defined.

(** The same overrun through the tick itself. *)
Example tick_overruns_the_bar :
  let w' := exec incrementMediaTime near_the_end in
  currentMediaTime (this w') = number_of_Z 121 ∧
  progress_width (document w') = Some 602 ∧
  castPlayerState (this w') = PLAYER_STATE.IDLE ∧
  timer_running w' = false.
Proof. vm_compute. done. Qed.

(** Rounding to binary64 shows in the bar: a push at second 8.11 of 81.1
    displays 62 pixels with the indicator at 61. *)
Example push_at_8_11_of_81_1 :
  let m := {| Media.mediaSessionId := 3; Media.sessionId := "session-1";
              Media.playerState := "PLAYING";
              Media.currentTime := number_of_Z 0;
              Media.duration := ratio 811 10 |} in
  let e := {| MediaStatus.idleReason := None;
              MediaStatus.playerState := "PLAYING";
              MediaStatus.currentTime := ratio 811 100 |} in
  let w' := run [ E_launchApp; E_onRequestSessionSuccess a_session;
                  E_onMediaDiscovered m; E_onMediaStatusUpdate (Status e) ]
              (new_CastPlayer streamcloud_page) in
  progress_width (document w') = Some 62 ∧
  progress_indicator_marginLeft (document w') = Some (-560).
Proof. vm_compute. done. Qed.

(** ** C4: the session is stopped *)

(** C4, as stated, fails: after the stop succeeded [this.session] still
    holds the session. *)
Lemma C4_stop_keeps_session :
  ¬ stop_resets_all (exec (onStopAppSuccess "Session stopped") playing_world).
Proof. intros (Hsession & _). vm_compute in Hsession. discriminate. Qed.

(** C4, amended: the success callback of a session stop completes, clears
    the media session handle and keeps [this.session], resets deviceState
    and castPlayerState to IDLE, leaves the timer cleared (no interval at
    all in a reachable world), and resets currentMediaTime,
    currentMediaDuration and the displayed width to zero. *)
Theorem C4_stop_resets (w : World) (message : string) :
  let w' := exec (onStopAppSuccess message) w in
  completes (onStopAppSuccess message) w = true ∧
  currentMediaSession (this w') = None ∧
  session (this w') = session (this w) ∧
  deviceState (this w') = DEVICE_STATE.IDLE ∧
  castPlayerState (this w') = PLAYER_STATE.IDLE ∧
  timer_running w' = false ∧
  (reachable w → no_timer w') ∧
  currentMediaTime (this w') = number_of_Z 0 ∧
  currentMediaDuration (this w') = number_of_Z 0 ∧
  progress_width (document w') = Some 0.
Proof.
  intros w'. subst w'.
  assert (Hinv : reachable w → timer_inv w) by apply reachable_timer_inv.
  destruct w as [c doc win calls pg].
  unfold timer_inv, no_timer, timer_running in *.
  js_run; js_fields; repeat split; try done.
  - apply bool_decide_eq_false. set_solver.
  - intros Hw. destruct (Hinv Hw) as (Hlive & _). set_solver.
  - intros Hw. destruct (Hinv Hw) as (Hlive & _). set_solver.
Qed.

Lemma C4_stop_resets_witness :
  no_timer (exec (onStopAppSuccess "Session stopped") playing_world).
Proof.
  destruct (C4_stop_resets playing_world "Session stopped")
    as (_ & _ & _ & _ & _ & _ & H & _).
  apply H, playing_world_reachable.
Defined.

(** ** C5: commands while IDLE *)

(** C5, as stated, fails: a click on the mute control in the freshly
    constructed, IDLE player flips [this.audio]. *)
Lemma C5_mute_while_IDLE_changes_audio : ¬ idle_commands_are_noops.
Proof.
  intros H.
  specialize (H (new_CastPlayer streamcloud_page) (E_muteMedia click_on_audio)
                eq_refl eq_refl).
  apply (f_equal (λ r, audio (this r.2))) in H.
  vm_compute in H. discriminate.
Qed.

(** C5, amended: while castPlayerState is IDLE, play, pause and seek
    complete without issuing a command and without changing anything. *)
Theorem C5_idle_play_pause_seek_are_noops (w : World) :
  castPlayerState (this w) = PLAYER_STATE.IDLE →
  playMedia w = (Normal (), w) ∧
  pauseMedia w = (Normal (), w) ∧
  ∀ event, seekMedia event w = (Normal (), w).
Proof.
  intros Hidle. destruct w as [c doc win calls pg].
  destruct c as [dev cms vol auto sess st aud mc time dur tm flag ms].
  simpl in Hidle. subst st.
  repeat split; intros; js_run; js_fields; done.
Qed.

Lemma C5_idle_play_pause_seek_are_noops_witness :
  let w := new_CastPlayer page_without_player in
  playMedia w = (Normal (), w) ∧
  pauseMedia w = (Normal (), w) ∧
  seekMedia (click_on_bar 300) w = (Normal (), w).
Proof.
  destruct (C5_idle_play_pause_seek_are_noops (new_CastPlayer page_without_player))
    as (Hplay & Hpause & Hseek); [reflexivity|].
  split; [exact Hplay|]. split; [exact Hpause|]. apply Hseek.
Defined.

(** ** C6: a status push that is not idle/finished *)

(** C6, as stated, fails: the receiver reports PAUSED at second 60 while
    the player is PLAYING at second 0; the player stays PLAYING at 0. *)
Lemma C6_push_is_not_mirrored :
  ¬ push_is_mirrored (status_at_60 "PAUSED")
      (exec (onMediaStatusUpdate (Status (status_at_60 "PAUSED"))) playing_world).
Proof. intros [Hstate _]. vm_compute in Hstate. discriminate. Qed.

(** C6, amended: with a media session, a receiver status push other than
    idle/finished completes, sets progressFlag to false with a timeout
    pending to set it again, and assigns the bar from the pushed
    currentTime: width Math.ceil(600 * currentTime / duration + 1) and
    indicator Math.ceil(600 * currentTime / duration) past its origin, in
    JavaScript number arithmetic (a push without currentTime assigns NaN,
    which leaves the bar as it was).  castPlayerState and currentMediaTime
    are left as they were by every such push except the boolean false, for
    which the player becomes IDLE at time 0. *)
Theorem C6_push_updates_bar (w : World) (e : UpdateArg) (m : Media.t) :
  finished e = false →
  currentMediaSession (this w) = Some m →
  let x := bar_position (e_currentTime e) (Media.duration m) in
  let w' := exec (onMediaStatusUpdate e) w in
  completes (onMediaStatusUpdate e) w = true ∧
  (e ≠ Alive false →
     castPlayerState (this w') = castPlayerState (this w) ∧
     currentMediaTime (this w') = currentMediaTime (this w)) ∧
  (e = Alive false →
     castPlayerState (this w') = PLAYER_STATE.IDLE ∧
     currentMediaTime (this w') = number_of_Z 0) ∧
  progressFlag (this w') = false ∧
  timeouts (window w') = timeouts (window w) ++ [cb_setProgressFlag] ∧
  intervals (window w') = intervals (window w) ∧
  progress_width (document w')
    = css_length (Math_ceil (js_add x (number_of_Z 1)))
        (progress_width (document w)) ∧
  progress_indicator_marginLeft (document w')
    = css_margin (js_add indicator_origin (Math_ceil x))
        (progress_indicator_marginLeft (document w)).
Proof.
  intros Hfin Hm x w'. subst w' x.
  destruct w as [c doc win calls pg].
  destruct c as [dev cms vol auto sess st aud mc time dur tm flag ms].
  simpl in Hm. subst cms.
  unfold finished in Hfin. unfold onMediaStatusUpdate, updateProgressBar.
  rewrite Hfin.
  destruct e as [[|]|e]; js_run; js_fields; repeat split; try done.
Qed.

(** A push of the receiver's status object leaves the player state alone,
    and the listener called with the boolean false makes the player IDLE;
    neither redraws the bar for the boolean. *)
Lemma C6_push_updates_bar_witness :
  let w' := exec (onMediaStatusUpdate (Status (status_at_60 "PAUSED")))
              playing_world in
  let w'' := exec (onMediaStatusUpdate (Alive false)) three_seconds_in in
  castPlayerState (this w') = PLAYER_STATE.PLAYING ∧
  progressFlag (this w') = false ∧
  castPlayerState (this w'') = PLAYER_STATE.IDLE ∧
  progress_width (document w'') = progress_width (document three_seconds_in).
Proof.
  destruct (C6_push_updates_bar playing_world (Status (status_at_60 "PAUSED"))
              a_media)
    as (_ & Hstate & _ & Hflag & _); [reflexivity|reflexivity|].
  destruct (C6_push_updates_bar three_seconds_in (Alive false) a_media)
    as (_ & _ & Hidle & _ & _ & _ & Hwidth & _); [reflexivity|reflexivity|].
  split; [apply Hstate; discriminate|]. split; [exact Hflag|].
  split; [apply Hidle; reflexivity|].
  rewrite Hwidth. reflexivity.
Defined.

(** ** C7: the retries of findCloudPlayerSource *)

Lemma retry_reschedules (w : World) :
  mediaContent (this w) = None →
  page w = page_without_player →
  timeouts (window w) = [cb_findCloudPlayerSource 0] →
  let w' := step w (E_timeout 0) in
  mediaContent (this w') = None ∧
  page w' = page_without_player ∧
  timeouts (window w') = [cb_findCloudPlayerSource 0] ∧
  timers_created w' = S (timers_created w).
Proof.
  destruct w as [c doc win calls pg]. destruct win as [live pending next].
  unfold timers_created. simpl. intros Hmc -> ->.
  js_run; js_fields; simpl in *; simplify_eq. repeat split; try done.
  rewrite Pos2Nat.inj_succ. pose proof (Pos2Nat.is_pos next). lia.
Qed.

(** C7 fails on the code: on a page where jwplayer is never defined, the
    retry scheduled by [findCloudPlayerSource] is rescheduled every time it
    expires, always with attemptCount 0; after [n] expirations [n + 1]
    timeouts have been created and one is pending. *)
Theorem C7_retries_are_unbounded (n : nat) :
  let w := run (retries n) (new_CastPlayer page_without_player) in
  timeouts (window w) = [cb_findCloudPlayerSource 0] ∧
  timers_created w = S n ∧
  mediaContent (this w) = None.
Proof.
  simpl.
  assert (H : ∀ w,
    mediaContent (this w) = None →
    page w = page_without_player →
    timeouts (window w) = [cb_findCloudPlayerSource 0] →
    timeouts (window (run (retries n) w)) = [cb_findCloudPlayerSource 0] ∧
    timers_created (run (retries n) w) = (timers_created w + n)%nat ∧
    mediaContent (this (run (retries n) w)) = None).
  { induction n as [|n IH]; intros w Hmc Hpg Hto; simpl.
    - repeat split; try done; lia.
    - destruct (retry_reschedules w Hmc Hpg Hto) as (Hmc' & Hpg' & Hto' & Hn).
      destruct (IH _ Hmc' Hpg' Hto') as (? & Hcount & ?).
      repeat split; try done. unfold retries in Hcount. rewrite Hcount, Hn. lia. }
  apply (H (new_CastPlayer page_without_player)); reflexivity.
Qed.

(** Seven expirations, more than [MAX_ATTEMPT_COUNT] allows, and the retry
    is pending again. *)
Example seven_retries :
  let w := run (retries 7) (new_CastPlayer page_without_player) in
  timeouts (window w) = [cb_findCloudPlayerSource 0] ∧ timers_created w = 8%nat.
Proof. vm_compute. done. Qed.

(** ** C8: the first locator to write the descriptor wins *)

(** C8: once mediaContent is set, every source locator called or retried
    afterwards completes without any effect, and no sequence of events
    changes the descriptor. *)
Theorem C8_first_writer_wins (w : World) (d : MediaContent.t) :
  mediaContent (this w) = Some d →
  (∀ attemptCount, findCloudPlayerSource attemptCount w = (Normal (), w)) ∧
  (∀ attemptCount, findCloudPlayerSource_retry attemptCount w = (Normal (), w)) ∧
  findbitShareSource w = (Normal (), w) ∧
  searchVideoSource w = (Normal (), w) ∧
  (∀ evs, mediaContent (this (run evs w)) = Some d).
Proof.
  intros Hd. split; [|split; [|split; [|split]]].
  1-4: destruct w as [c doc win calls pg]; simpl in Hd; intros;
       js_run; js_fields; congruence.
  intros evs. by apply run_keeps_mediaContent.
Qed.

(** On a page with a jwplayer playlist and a bitshare script the jwplayer
    locator runs first and writes the descriptor; the bitshare locator does
    nothing, and the descriptor survives the start of a cast. *)
Lemma C8_first_writer_wins_witness :
  let w := new_CastPlayer page_with_two_players in
  findbitShareSource w = (Normal (), w) ∧
  mediaContent (this (run cast_started w)) = mediaContent (this w).
Proof.
  pose proof (C8_first_writer_wins (new_CastPlayer page_with_two_players)
                {| MediaContent.title := Some "Big Buck Bunny";
                   MediaContent.source := Some "http://cdn.example.org/bunny.mp4";
                   MediaContent.thumb := None;
                   MediaContent.subtitle := Some "" |} eq_refl)
    as (_ & _ & Hbit & _ & Hrun).
  split; [exact Hbit|]. rewrite Hrun. reflexivity.
Defined.

(** The bitshare locator alone finds the stream of a bitshare page. *)
Example bitshare_page_located :
  mediaContent (this (new_CastPlayer bitshare_page))
  = Some {| MediaContent.title := Some "Unknown";
            MediaContent.source := Some "http://bitshare.com/stream/film.avi";
            MediaContent.thumb := Some "";
            MediaContent.subtitle := Some "" |}.
Proof. reflexivity. Qed.

(** ** C9: the seek target *)

Lemma same_number_eq (x y : number) : same_number x y = true → x = y.
Proof.
  destruct x as [s|s| |s m e], y as [s'|s'| |s' m' e']; simpl; try done.
  - by intros ->%Bool.eqb_prop.
  - by intros ->%Bool.eqb_prop.
  - intros [[->%Bool.eqb_prop ->%Pos.eqb_eq]%andb_true_iff ->%Z.eqb_eq]%andb_true_iff.
    done.
Qed.

(** A click at offset 0 seeks to 0 whatever the finite duration. *)
Lemma seek_target_at_0 (d : number) :
  is_finite d = true → seek_target (number_of_Z 0) d = number_of_Z 0.
Proof. destruct d as [[|]|[|]| |[|] m e]; try done. Qed.

Lemma whole_seconds_checked (n k : Z) :
  whole_seconds_seek_to_the_end n = true →
  0 ≤ k < n →
  seek_target (number_of_Z PROGRESS_BAR_WIDTH) (number_of_Z k) = number_of_Z k.
Proof.
  unfold whole_seconds_seek_to_the_end. rewrite forallb_forall.
  intros Hall Hk. specialize (Hall (Z.to_nat k)).
  rewrite Z2Nat.id in Hall by lia.
  apply same_number_eq, Hall, in_seq. lia.
Qed.

(** A click at the full width seeks to the duration itself for media of a
    whole number of seconds up to two hours. *)
Lemma seek_target_at_width (k : Z) :
  0 ≤ k ≤ 7200 →
  seek_target (number_of_Z PROGRESS_BAR_WIDTH) (number_of_Z k) = number_of_Z k.
Proof.
  intros Hk. apply (whole_seconds_checked 7201); [|lia].
  vm_compute. reflexivity.
Qed.

(** C9, as stated, fails: a seek at offset 1200, twice the width of the
    bar, on media of 120 seconds sets currentMediaTime to 240, not to the
    duration. *)
Lemma C9_seek_is_not_clamped :
  js_eq
    (currentMediaTime (this (exec (seekMedia (click_on_bar 1200)) playing_world)))
    (spec_seek_target (number_of_Z 1200) (number_of_Z 120))
  ≠ true.
Proof. vm_compute. discriminate. Qed.

(** C9, amended: a click on the bar (not a drag of the indicator) while
    PLAYING or PAUSED with a media session completes, sends a seek to and
    sets currentMediaTime to parseInt(offset * duration / 600), evaluated
    as JavaScript does (binary64 arithmetic, parseInt reading the string of
    the number), a function of the offset, the duration and the fixed width
    alone; offset 0 maps to 0 for every finite duration, offset 600 maps to
    the duration itself for media of a whole number of seconds up to two
    hours, and the target is not clamped: offset 1200 on media of 120
    seconds maps to 240. *)
Theorem C9_seek_target_of_click (w : World) (event : MouseEvent.t) (m : Media.t) :
  MouseEvent.currentTarget_id event ≠ "progress_indicator" →
  castPlayerState (this w) = PLAYER_STATE.PLAYING
  ∨ castPlayerState (this w) = PLAYER_STATE.PAUSED →
  currentMediaSession (this w) = Some m →
  let pos := parseInt (MouseEvent.offsetX event) in
  let d := currentMediaDuration (this w) in
  let w' := exec (seekMedia event) w in
  completes (seekMedia event) w = true ∧
  currentMediaTime (this w') = seek_target pos d ∧
  cast w' = cast w ++ [media_seek m (seek_target pos d)] ∧
  castPlayerState (this w') = PLAYER_STATE.SEEKING ∧
  (is_finite d = true → seek_target (number_of_Z 0) d = number_of_Z 0) ∧
  (∀ k, 0 ≤ k ≤ 7200 →
     seek_target (number_of_Z PROGRESS_BAR_WIDTH) (number_of_Z k)
     = number_of_Z k) ∧
  seek_target (number_of_Z 1200) (number_of_Z 120) = number_of_Z 240.
Proof.
  intros Hid Hst Hm pos d w'. subst w'.
  apply String.eqb_neq in Hid.
  destruct w as [c doc win calls pg].
  destruct c as [dev cms vol auto sess st aud mc time dur tm flag ms].
  cbn [this castPlayerState currentMediaSession currentMediaDuration] in *.
  subst cms.
  split; [|split; [|split; [|split; [|split; [|split]]]]].
  1-4: unfold seekMedia; rewrite Hid; fold pos;
       destruct Hst; subst st; js_run; js_fields; done.
  - apply seek_target_at_0.
  - apply seek_target_at_width.
  - vm_compute. reflexivity.
Qed.

Lemma C9_seek_target_of_click_witness :
  let w' := exec (seekMedia (click_on_bar 600)) playing_world in
  currentMediaTime (this w') = number_of_Z 120 ∧
  castPlayerState (this w') = PLAYER_STATE.SEEKING.
Proof.
  destruct (C9_seek_target_of_click playing_world (click_on_bar 600) a_media)
    as (_ & Htime & _ & Hstate & _ & Hwidth & _);
    [discriminate|left; reflexivity|reflexivity|].
  split; [|exact Hstate].
  rewrite Htime. apply (Hwidth 120). lia.
Defined.

(** Rounding and the string of the number show in the seek target: offset
    375 on media of 36.8 seconds seeks to 22, and offset 1 on media of
    0.0003 seconds seeks to 5. *)
Example seek_targets_of_binary64 :
  seek_target (number_of_Z 375) (ratio 368 10) = number_of_Z 22 ∧
  seek_target (number_of_Z 1) (ratio 3 10000) = number_of_Z 5.
Proof. split; vm_compute; reflexivity. Qed.

(** ** C10: loadMedia without a session *)

(** C10: with no session, loadMedia returns at once: it completes and
    leaves the world as it was, so that no command is issued and
    castPlayerState keeps its value. *)
Theorem C10_loadMedia_without_session (w : World) :
  session (this w) = None →
  loadMedia w = (Normal (), w) ∧
  cast (exec loadMedia w) = cast w ∧
  castPlayerState (this (exec loadMedia w)) = castPlayerState (this w).
Proof.
  intros Hs. destruct w as [c doc win calls pg]. simpl in Hs.
  js_run; js_fields; simplify_eq. done.
Qed.

Lemma C10_loadMedia_without_session_witness :
  let w := new_CastPlayer streamcloud_page in
  loadMedia w = (Normal (), w) ∧
  castPlayerState (this (exec loadMedia w)) = PLAYER_STATE.IDLE.
Proof.
  destruct (C10_loadMedia_without_session (new_CastPlayer streamcloud_page))
    as (Hsame & _ & Hstate); [reflexivity|].
  split; [exact Hsame|exact Hstate].
Defined.
